(** * Body-measurement calculator ([calculator.py]): embedding and properties

    The calculator works on Python floats.  The development embeds it twice.

    The first embedding reads floats as real numbers (the specification's
    "real-valued pixel coordinates"): landmark dictionaries are finite maps
    from names to points, Python exceptions are values of [exn] carried by
    the [result] monad.  It serves the properties that do not turn on
    rounding: which landmarks are read and in which order, which check
    raises which exception, how the orchestrator assembles its mapping, and
    the algebraic shape of the formulas.  Rounding, overflow and NaN are
    outside it.

    The second embedding ([Binary64]) computes on IEEE 754 binary64 numbers
    as the interpreter does.  It serves the properties that do turn on
    rounding: membership in a tolerance band, the branch a comparison takes,
    and the order of two computed circumferences. *)

From Stdlib Require Import Floats ZArith Lia.
From Stdlib Require Import Reals Lra.
From stdpp Require Import gmap strings list fin_maps.

Open Scope R_scope.

(** ** Exceptions and the result monad *)

(** Why a [ValueError] was raised: one constructor per [raise] statement of
    the module, plus the errors of the built-ins it calls ([math.sqrt] on a
    negative number, [min] and [max] on an empty sequence). *)
Inductive value_error : Type :=
  | EmptyLandmarks
  | InvalidHeight (user_height_cm : R)
  | NoYCoordinates
  | InvalidHeightInPixels (height_in_pixels : R)
  | MathDomain
  | EmptySequence.

Inductive exn : Type :=
  | ValueError (why : value_error)
  | KeyError (key : string)
  | ZeroDivisionError.

Inductive result (A : Type) : Type :=
  | Ok (a : A)
  | Raise (e : exn).

Arguments Ok {A} a.
Arguments Raise {A} e.

Definition bind {A B : Type} (r : result A) (k : A → result B) : result B :=
  match r with
  | Ok a => k a
  | Raise e => Raise e
  end.

Notation "x ←! r ; k" := (bind r (fun x => k))
  (at level 20, r at level 100, k at level 200, right associativity,
   format "'[' x  ←!  r ; '/' k ']'").

(** ** Data model *)

(** A point is a pair (x, y) of pixel coordinates, [p.1] and [p.2]. *)
Definition Point : Type := R * R.

(** A landmark dictionary.  Python iterates a dictionary in insertion order
    and [map_to_list] in key order; the calculator only takes the minimum and
    the maximum of what it iterates over, which no order changes
    ([py_min_Ok], [py_max_Ok] below). *)
Abbreviation LandmarkSet := (gmap string Point).

(** [d[key]]: a dictionary subscript raises [KeyError(key)] on a miss. *)
Definition getitem (d : LandmarkSet) (key : string) : result Point :=
  match d !! key with
  | Some p => Ok p
  | None => Raise (KeyError key)
  end.

(** ** Python primitives on floats, read over the reals *)

#[global] Instance Rlt_decision (x y : R) : Decision (x < y) := Rlt_dec x y.
#[global] Instance Rle_decision (x y : R) : Decision (x <= y) := Rle_dec x y.
#[global] Instance Req_decision : EqDecision R := Req_dec_T.

(** [x / y] raises [ZeroDivisionError] when the divisor is zero. *)
Definition py_div (x y : R) : result R :=
  if decide (y = 0) then Raise ZeroDivisionError else Ok (x / y).

(** [math.sqrt(x)] raises [ValueError] on a negative argument. *)
Definition py_sqrt (x : R) : result R :=
  if decide (x < 0) then Raise (ValueError MathDomain) else Ok (sqrt x).

(** [min(l)] and [max(l)] of a list: a left-to-right scan that keeps the
    best element so far, and a [ValueError] on an empty sequence. *)
Definition py_min (l : list R) : result R :=
  match l with
  | [] => Raise (ValueError EmptySequence)
  | x :: xs => Ok (foldl Rmin x xs)
  end.

Definition py_max (l : list R) : result R :=
  match l with
  | [] => Raise (ValueError EmptySequence)
  | x :: xs => Ok (foldl Rmax x xs)
  end.

(** ** Geometry primitives *)

Definition euclidean_distance (p1 p2 : Point) : result R :=
  py_sqrt ((p2.1 - p1.1) ^ 2 + (p2.2 - p1.2) ^ 2).

Definition ramanujan_ellipse_circumference (a b : R) : result R :=
  h ←! py_div ((a - b) ^ 2) ((a + b) ^ 2);
  root ←! py_sqrt ((3 * a + b) * (a + 3 * b));
  let circumference := PI * (3 * (a + b) - root) in
  Ok circumference.

(** ** Calibrator *)

Definition calibrate_pixel_to_cm (front_landmarks : LandmarkSet)
    (user_height_cm : R) : result R :=
  if decide (front_landmarks = ∅) then Raise (ValueError EmptyLandmarks)
  else if decide (user_height_cm <= 0)
  then Raise (ValueError (InvalidHeight user_height_cm))
  else
    let y_coordinates :=
      (λ coord : Point, coord.2) <$> (map_to_list front_landmarks).*2 in
    match y_coordinates with
    | [] => Raise (ValueError NoYCoordinates)
    | _ :: _ =>
        min_y ←! py_min y_coordinates;
        max_y ←! py_max y_coordinates;
        let height_in_pixels := max_y - min_y in
        if decide (height_in_pixels <= 0)
        then Raise (ValueError (InvalidHeightInPixels height_in_pixels))
        else
          pixel_to_cm_ratio ←! py_div user_height_cm height_in_pixels;
          Ok pixel_to_cm_ratio
    end.

(** ** Linear measurements (front photo) *)

Definition calculate_shoulder_width (front_landmarks : LandmarkSet)
    (pixel_to_cm : R) : result R :=
  left_shoulder ←! getitem front_landmarks "LEFT_SHOULDER";
  right_shoulder ←! getitem front_landmarks "RIGHT_SHOULDER";
  distance_px ←! euclidean_distance left_shoulder right_shoulder;
  Ok (distance_px * pixel_to_cm).

Definition calculate_sleeve_length (front_landmarks : LandmarkSet)
    (pixel_to_cm : R) (side : string) : result R :=
  shoulder ←! getitem front_landmarks (side +:+ "_SHOULDER");
  elbow ←! getitem front_landmarks (side +:+ "_ELBOW");
  wrist ←! getitem front_landmarks (side +:+ "_WRIST");
  shoulder_to_elbow ←! euclidean_distance shoulder elbow;
  elbow_to_wrist ←! euclidean_distance elbow wrist;
  let total_length_px := shoulder_to_elbow + elbow_to_wrist in
  Ok (total_length_px * pixel_to_cm).

Definition calculate_inseam (front_landmarks : LandmarkSet)
    (pixel_to_cm : R) : result R :=
  left_hip ←! getitem front_landmarks "LEFT_HIP";
  right_hip ←! getitem front_landmarks "RIGHT_HIP";
  let crotch_x := (left_hip.1 + right_hip.1) / 2 in
  let crotch_y := Rmax left_hip.2 right_hip.2 in
  let crotch : Point := (crotch_x, crotch_y) in
  left_ankle ←! getitem front_landmarks "LEFT_ANKLE";
  right_ankle ←! getitem front_landmarks "RIGHT_ANKLE";
  left_inseam_px ←! euclidean_distance crotch left_ankle;
  right_inseam_px ←! euclidean_distance crotch right_ankle;
  let avg_inseam_px := (left_inseam_px + right_inseam_px) / 2 in
  Ok (avg_inseam_px * pixel_to_cm).

Definition calculate_outseam (front_landmarks : LandmarkSet)
    (pixel_to_cm : R) : result R :=
  left_hip ←! getitem front_landmarks "LEFT_HIP";
  right_hip ←! getitem front_landmarks "RIGHT_HIP";
  left_ankle ←! getitem front_landmarks "LEFT_ANKLE";
  right_ankle ←! getitem front_landmarks "RIGHT_ANKLE";
  left_outseam_px ←! euclidean_distance left_hip left_ankle;
  right_outseam_px ←! euclidean_distance right_hip right_ankle;
  let avg_outseam_px := (left_outseam_px + right_outseam_px) / 2 in
  Ok (avg_outseam_px * pixel_to_cm).

(** ** Circumferential measurements (front and side photos) *)

(** The list comprehension shared by chest, waist and hip:
    [[coord[0] for name, coord in side_landmarks.items()
      if abs(coord[1] - level_y) < tolerance]]. *)
Definition level_points (side_landmarks : LandmarkSet)
    (level_y tolerance : R) : list R :=
  (λ item : string * Point, item.2.1) <$>
    filter (λ item : string * Point, Rabs (item.2.2 - level_y) < tolerance)
      (map_to_list side_landmarks).

(** The conditional shared by chest, waist and hip:
    [max(points) - min(points)] if the list is non-empty, else the fallback. *)
Definition depth_px (points : list R) (fallback : R) : result R :=
  match points with
  | _ :: _ =>
      hi ←! py_max points;
      lo ←! py_min points;
      Ok (hi - lo)
  | [] => Ok fallback
  end.

Definition calculate_neck_circumference (front_landmarks side_landmarks : LandmarkSet)
    (pixel_to_cm : R) : result R :=
  left_shoulder_front ←! getitem front_landmarks "LEFT_SHOULDER";
  right_shoulder_front ←! getitem front_landmarks "RIGHT_SHOULDER";
  shoulder_width_px ←! euclidean_distance left_shoulder_front right_shoulder_front;
  let neck_width_px := shoulder_width_px * 0.30 in
  left_shoulder_side ←! getitem side_landmarks "LEFT_SHOULDER";
  right_shoulder_side ←! getitem side_landmarks "RIGHT_SHOULDER";
  let x_coords := [left_shoulder_side.1; right_shoulder_side.1] in
  hi ←! py_max x_coords;
  lo ←! py_min x_coords;
  let neck_depth_px := (hi - lo) * 0.30 in
  let neck_depth_px :=
    if decide (neck_depth_px < neck_width_px * 0.3)
    then neck_width_px * 0.7 else neck_depth_px in
  let a := (neck_width_px / 2) * pixel_to_cm in
  let b := (neck_depth_px / 2) * pixel_to_cm in
  ramanujan_ellipse_circumference a b.

Definition calculate_chest_circumference (front_landmarks side_landmarks : LandmarkSet)
    (pixel_to_cm : R) : result R :=
  left_shoulder ←! getitem front_landmarks "LEFT_SHOULDER";
  right_shoulder ←! getitem front_landmarks "RIGHT_SHOULDER";
  distance_px ←! euclidean_distance left_shoulder right_shoulder;
  let chest_width_px := distance_px * 1.1 in
  left_shoulder_side ←! getitem side_landmarks "LEFT_SHOULDER";
  right_shoulder_side ←! getitem side_landmarks "RIGHT_SHOULDER";
  let chest_y := (left_shoulder_side.2 + right_shoulder_side.2) / 2 in
  left_hip_side ←! getitem side_landmarks "LEFT_HIP";
  let tolerance := Rabs (left_shoulder_side.2 - left_hip_side.2) * 0.2 in
  let chest_level_points := level_points side_landmarks chest_y tolerance in
  chest_depth_px ←!
    depth_px chest_level_points (Rabs (left_shoulder_side.1 - right_shoulder_side.1));
  let a := (chest_width_px / 2) * pixel_to_cm in
  let b := (chest_depth_px / 2) * pixel_to_cm in
  ramanujan_ellipse_circumference a b.

Definition calculate_waist_circumference (front_landmarks side_landmarks : LandmarkSet)
    (pixel_to_cm : R) : result R :=
  left_hip ←! getitem front_landmarks "LEFT_HIP";
  right_hip ←! getitem front_landmarks "RIGHT_HIP";
  waist_width_px ←! euclidean_distance left_hip right_hip;
  left_hip_side ←! getitem side_landmarks "LEFT_HIP";
  right_hip_side ←! getitem side_landmarks "RIGHT_HIP";
  let waist_y := (left_hip_side.2 + right_hip_side.2) / 2 in
  left_shoulder_side ←! getitem side_landmarks "LEFT_SHOULDER";
  let tolerance := Rabs (left_hip_side.2 - left_shoulder_side.2) * 0.1 in
  let waist_level_points := level_points side_landmarks waist_y tolerance in
  waist_depth_px ←!
    depth_px waist_level_points (Rabs (left_hip_side.1 - right_hip_side.1));
  let a := (waist_width_px / 2) * pixel_to_cm in
  let b := (waist_depth_px / 2) * pixel_to_cm in
  ramanujan_ellipse_circumference a b.

Definition calculate_hip_circumference (front_landmarks side_landmarks : LandmarkSet)
    (pixel_to_cm : R) : result R :=
  left_hip ←! getitem front_landmarks "LEFT_HIP";
  right_hip ←! getitem front_landmarks "RIGHT_HIP";
  hip_width_px ←! euclidean_distance left_hip right_hip;
  left_hip_side ←! getitem side_landmarks "LEFT_HIP";
  right_hip_side ←! getitem side_landmarks "RIGHT_HIP";
  let hip_y := (left_hip_side.2 + right_hip_side.2) / 2 in
  left_knee_side ←! getitem side_landmarks "LEFT_KNEE";
  let tolerance := Rabs (left_hip_side.2 - left_knee_side.2) * 0.2 in
  let hip_level_points := level_points side_landmarks hip_y tolerance in
  hip_depth_px ←!
    depth_px hip_level_points (Rabs (left_hip_side.1 - right_hip_side.1));
  let a := (hip_width_px / 2) * pixel_to_cm in
  let b := (hip_depth_px / 2) * pixel_to_cm in
  ramanujan_ellipse_circumference a b.

Definition calculate_bicep_circumference (front_landmarks side_landmarks : LandmarkSet)
    (pixel_to_cm : R) (side : string) : result R :=
  shoulder ←! getitem front_landmarks (side +:+ "_SHOULDER");
  elbow ←! getitem front_landmarks (side +:+ "_ELBOW");
  arm_length_px ←! euclidean_distance shoulder elbow;
  let bicep_width_px := arm_length_px * 0.20 in
  shoulder_side ←! getitem side_landmarks (side +:+ "_SHOULDER");
  elbow_side ←! getitem side_landmarks (side +:+ "_ELBOW");
  arm_length_side_px ←! euclidean_distance shoulder_side elbow_side;
  let bicep_depth_px := arm_length_side_px * 0.20 in
  let a := (bicep_width_px / 2) * pixel_to_cm in
  let b := (bicep_depth_px / 2) * pixel_to_cm in
  ramanujan_ellipse_circumference a b.

Definition calculate_thigh_circumference (front_landmarks side_landmarks : LandmarkSet)
    (pixel_to_cm : R) (side : string) : result R :=
  hip ←! getitem front_landmarks (side +:+ "_HIP");
  knee ←! getitem front_landmarks (side +:+ "_KNEE");
  thigh_length_px ←! euclidean_distance hip knee;
  let thigh_width_px := thigh_length_px * 0.25 in
  hip_side ←! getitem side_landmarks (side +:+ "_HIP");
  knee_side ←! getitem side_landmarks (side +:+ "_KNEE");
  thigh_length_side_px ←! euclidean_distance hip_side knee_side;
  let thigh_depth_px := thigh_length_side_px * 0.25 in
  let a := (thigh_width_px / 2) * pixel_to_cm in
  let b := (thigh_depth_px / 2) * pixel_to_cm in
  ramanujan_ellipse_circumference a b.

(** ** Orchestrator *)

Definition calculate_all_measurements (front_landmarks side_landmarks : LandmarkSet)
    (user_height_cm : R) : result (gmap string R) :=
  pixel_to_cm ←! calibrate_pixel_to_cm front_landmarks user_height_cm;
  shoulder_width ←! calculate_shoulder_width front_landmarks pixel_to_cm;
  left_sleeve_length ←! calculate_sleeve_length front_landmarks pixel_to_cm "LEFT";
  right_sleeve_length ←! calculate_sleeve_length front_landmarks pixel_to_cm "RIGHT";
  inseam ←! calculate_inseam front_landmarks pixel_to_cm;
  outseam ←! calculate_outseam front_landmarks pixel_to_cm;
  neck ←! calculate_neck_circumference front_landmarks side_landmarks pixel_to_cm;
  chest ←! calculate_chest_circumference front_landmarks side_landmarks pixel_to_cm;
  waist ←! calculate_waist_circumference front_landmarks side_landmarks pixel_to_cm;
  hip ←! calculate_hip_circumference front_landmarks side_landmarks pixel_to_cm;
  left_bicep ←! calculate_bicep_circumference front_landmarks side_landmarks pixel_to_cm "LEFT";
  right_bicep ←! calculate_bicep_circumference front_landmarks side_landmarks pixel_to_cm "RIGHT";
  left_thigh ←! calculate_thigh_circumference front_landmarks side_landmarks pixel_to_cm "LEFT";
  right_thigh ←! calculate_thigh_circumference front_landmarks side_landmarks pixel_to_cm "RIGHT";
  let measurements : gmap string R :=
    <["right_thigh_circumference" := right_thigh]>
    (<["left_thigh_circumference" := left_thigh]>
    (<["right_bicep_circumference" := right_bicep]>
    (<["left_bicep_circumference" := left_bicep]>
    (<["hip_circumference" := hip]>
    (<["waist_circumference" := waist]>
    (<["chest_circumference" := chest]>
    (<["neck_circumference" := neck]>
    (<["outseam" := outseam]>
    (<["inseam" := inseam]>
    (<["right_sleeve_length" := right_sleeve_length]>
    (<["left_sleeve_length" := left_sleeve_length]>
    (<["shoulder_width" := shoulder_width]>
    (<["height" := user_height_cm]> ∅))))))))))))) in
  Ok measurements.

(** * Specification vocabulary

    The notions the properties below are stated with: the real-valued
    functions the fallible Python functions compute when they return,
    extremes over a landmark map, an index of the measurement functions with the names each one reads, and two sample
    landmark sets the properties are exercised on. *)

(** The real number a successful [euclidean_distance] call returns. *)
Definition dist (p1 p2 : Point) : R :=
  sqrt ((p2.1 - p1.1) ^ 2 + (p2.2 - p1.2) ^ 2).

(** [y] is the smallest (largest) y-coordinate among all values of [m]. *)
Definition is_min_y (m : LandmarkSet) (y : R) : Prop :=
  (∃ k p, m !! k = Some p ∧ p.2 = y) ∧ ∀ k p, m !! k = Some p → y <= p.2.

Definition is_max_y (m : LandmarkSet) (y : R) : Prop :=
  (∃ k p, m !! k = Some p ∧ p.2 = y) ∧ ∀ k p, m !! k = Some p → p.2 <= y.

(** Sample landmark sets: the thirteen landmarks of a standing figure, seen
    from the front and from the side. *)
Definition sample_front : LandmarkSet :=
  {[ "NOSE" := (200, 10);
     "LEFT_SHOULDER" := (100, 200); "RIGHT_SHOULDER" := (300, 200);
     "LEFT_ELBOW" := (80, 350); "RIGHT_ELBOW" := (320, 350);
     "LEFT_WRIST" := (70, 500); "RIGHT_WRIST" := (330, 500);
     "LEFT_HIP" := (150, 550); "RIGHT_HIP" := (250, 560);
     "LEFT_KNEE" := (150, 780); "RIGHT_KNEE" := (250, 780);
     "LEFT_ANKLE" := (150, 1000); "RIGHT_ANKLE" := (250, 1000) ]}.

Definition sample_side : LandmarkSet :=
  {[ "NOSE" := (260, 10);
     "LEFT_SHOULDER" := (200, 200); "RIGHT_SHOULDER" := (240, 204);
     "LEFT_ELBOW" := (210, 350); "RIGHT_ELBOW" := (230, 350);
     "LEFT_WRIST" := (250, 500); "RIGHT_WRIST" := (260, 500);
     "LEFT_HIP" := (190, 550); "RIGHT_HIP" := (250, 550);
     "LEFT_KNEE" := (210, 780); "RIGHT_KNEE" := (230, 780);
     "LEFT_ANKLE" := (200, 1000); "RIGHT_ANKLE" := (220, 1000) ]}.

(** The value of Ramanujan's formula, as a real function. *)
Definition ramanujan (a b : R) : R :=
  PI * (3 * (a + b) - sqrt ((3 * a + b) * (a + 3 * b))).

(** The linear and elliptical measurement functions, by name; the two
    per-side functions carry their [side] argument. *)
Inductive measurer : Type :=
  | ShoulderWidth
  | SleeveLength (side : string)
  | Inseam
  | Outseam
  | NeckCircumference
  | ChestCircumference
  | WaistCircumference
  | HipCircumference
  | BicepCircumference (side : string)
  | ThighCircumference (side : string).

(** The call the index stands for; the linear functions ignore [side]. *)
Definition measure (f : measurer) (front side : LandmarkSet)
    (pixel_to_cm : R) : result R :=
  match f with
  | ShoulderWidth => calculate_shoulder_width front pixel_to_cm
  | SleeveLength sd => calculate_sleeve_length front pixel_to_cm sd
  | Inseam => calculate_inseam front pixel_to_cm
  | Outseam => calculate_outseam front pixel_to_cm
  | NeckCircumference => calculate_neck_circumference front side pixel_to_cm
  | ChestCircumference => calculate_chest_circumference front side pixel_to_cm
  | WaistCircumference => calculate_waist_circumference front side pixel_to_cm
  | HipCircumference => calculate_hip_circumference front side pixel_to_cm
  | BicepCircumference sd => calculate_bicep_circumference front side pixel_to_cm sd
  | ThighCircumference sd => calculate_thigh_circumference front side pixel_to_cm sd
  end.

(** The names a function subscripts the front landmark set with. *)
Definition front_names (f : measurer) : list string :=
  match f with
  | ShoulderWidth | NeckCircumference | ChestCircumference =>
      ["LEFT_SHOULDER"; "RIGHT_SHOULDER"]
  | SleeveLength sd => [sd +:+ "_SHOULDER"; sd +:+ "_ELBOW"; sd +:+ "_WRIST"]
  | Inseam | Outseam => ["LEFT_HIP"; "RIGHT_HIP"; "LEFT_ANKLE"; "RIGHT_ANKLE"]
  | WaistCircumference | HipCircumference => ["LEFT_HIP"; "RIGHT_HIP"]
  | BicepCircumference sd => [sd +:+ "_SHOULDER"; sd +:+ "_ELBOW"]
  | ThighCircumference sd => [sd +:+ "_HIP"; sd +:+ "_KNEE"]
  end.

(** The names a function subscripts the side landmark set with. *)
Definition side_names (f : measurer) : list string :=
  match f with
  | ShoulderWidth | SleeveLength _ | Inseam | Outseam => []
  | NeckCircumference => ["LEFT_SHOULDER"; "RIGHT_SHOULDER"]
  | ChestCircumference => ["LEFT_SHOULDER"; "RIGHT_SHOULDER"; "LEFT_HIP"]
  | WaistCircumference => ["LEFT_HIP"; "RIGHT_HIP"; "LEFT_SHOULDER"]
  | HipCircumference => ["LEFT_HIP"; "RIGHT_HIP"; "LEFT_KNEE"]
  | BicepCircumference sd => [sd +:+ "_SHOULDER"; sd +:+ "_ELBOW"]
  | ThighCircumference sd => [sd +:+ "_HIP"; sd +:+ "_KNEE"]
  end.

(** The pair of front landmarks whose distance gives an elliptical
    function its width (none for the linear functions). *)
Definition width_names (f : measurer) : list (string * string) :=
  match f with
  | ShoulderWidth | SleeveLength _ | Inseam | Outseam => []
  | NeckCircumference | ChestCircumference => [("LEFT_SHOULDER", "RIGHT_SHOULDER")]
  | WaistCircumference | HipCircumference => [("LEFT_HIP", "RIGHT_HIP")]
  | BicepCircumference sd => [(sd +:+ "_SHOULDER", sd +:+ "_ELBOW")]
  | ThighCircumference sd => [(sd +:+ "_HIP", sd +:+ "_KNEE")]
  end.

(** The fixed key vocabulary of a measurement set. *)
Definition measurement_keys : gset string :=
  {[ "height"; "shoulder_width"; "left_sleeve_length"; "right_sleeve_length";
     "inseam"; "outseam"; "neck_circumference"; "chest_circumference";
     "waist_circumference"; "hip_circumference"; "left_bicep_circumference";
     "right_bicep_circumference"; "left_thigh_circumference";
     "right_thigh_circumference" ]}.

(** The measurement calls of the dictionary display, in evaluation order,
    each paired with the key its value is stored under. *)
Definition sub_results (front side : LandmarkSet) (pixel_to_cm : R) :
    list (string * result R) :=
  [ ("shoulder_width", measure ShoulderWidth front side pixel_to_cm);
    ("left_sleeve_length", measure (SleeveLength "LEFT") front side pixel_to_cm);
    ("right_sleeve_length", measure (SleeveLength "RIGHT") front side pixel_to_cm);
    ("inseam", measure Inseam front side pixel_to_cm);
    ("outseam", measure Outseam front side pixel_to_cm);
    ("neck_circumference", measure NeckCircumference front side pixel_to_cm);
    ("chest_circumference", measure ChestCircumference front side pixel_to_cm);
    ("waist_circumference", measure WaistCircumference front side pixel_to_cm);
    ("hip_circumference", measure HipCircumference front side pixel_to_cm);
    ("left_bicep_circumference", measure (BicepCircumference "LEFT") front side pixel_to_cm);
    ("right_bicep_circumference", measure (BicepCircumference "RIGHT") front side pixel_to_cm);
    ("left_thigh_circumference", measure (ThighCircumference "LEFT") front side pixel_to_cm);
    ("right_thigh_circumference", measure (ThighCircumference "RIGHT") front side pixel_to_cm) ].

(** The exception of the first call that raises, if any does. *)
Fixpoint first_raise {A : Type} (calls : list (string * result A)) : option exn :=
  match calls with
  | [] => None
  | (_, Ok _) :: calls => first_raise calls
  | (_, Raise e) :: _ => Some e
  end.

(** * The calculator on binary64 numbers

    Band membership, branch tests and the last digits of a circumference
    depend on how Python rounds.  For the properties where that matters the
    functions are embedded a second time, on IEEE 754 binary64 numbers
    ([PrimFloat]), with every arithmetic operation and comparison the
    rounded one the interpreter performs, with [OverflowError] among the
    exceptions, and with NaN a value like any other.  A dictionary is the
    list of its items in insertion order, which is the order
    [side_landmarks.items()] yields them in and the order [min] and [max]
    scan. *)

Module Binary64.
Local Open Scope float_scope.
#[local] Set Warnings "-inexact-float".

Inductive value_error : Type :=
  | EmptyLandmarks
  | InvalidHeight (user_height_cm : float)
  | NoYCoordinates
  | InvalidHeightInPixels (height_in_pixels : float)
  | MathDomain
  | EmptySequence.

Inductive exn : Type :=
  | ValueError (why : value_error)
  | KeyError (key : string)
  | ZeroDivisionError
  | OverflowError.

Inductive result (A : Type) : Type :=
  | Ok (a : A)
  | Raise (e : exn).

Arguments Ok {A} a.
Arguments Raise {A} e.

Definition bind {A B : Type} (r : result A) (k : A → result B) : result B :=
  match r with
  | Ok a => k a
  | Raise e => Raise e
  end.

Notation "x ←$ r ; k" := (bind r (fun x => k))
  (at level 20, r at level 100, k at level 200, right associativity,
   format "'[' x  ←$  r ; '/' k ']'").

Definition Point : Type := float * float.

(** [Dict[str, Tuple[float, float]]]: the items in insertion order; the
    names of a dictionary are pairwise distinct. *)
Definition LandmarkSet : Type := list (string * Point).

(** [d[key]]. *)
Fixpoint getitem (d : LandmarkSet) (key : string) : result Point :=
  match d with
  | [] => Raise (KeyError key)
  | (name, coord) :: rest =>
      if String.eqb name key then Ok coord else getitem rest key
  end.

(** [math.pi]. *)
Definition pi : float := 0x1.921fb54442d18p+1.

(** [x ** 2], read as the correctly rounded square: the C library's [pow]
    returns it whenever the square is a double, and is within one unit in
    the last place of it otherwise.  [OverflowError] when the square of a
    finite number is too large for a double. *)
Definition py_pow2 (x : float) : result float :=
  let r := x * x in
  if is_infinity r && is_finite x then Raise OverflowError else Ok r.

(** [x / y]: a zero divisor of either sign raises; NaN and the infinities
    do not. *)
Definition py_div (x y : float) : result float :=
  if y =? 0 then Raise ZeroDivisionError else Ok (x / y).

(** [math.sqrt x]: raises when the root is not a number although the
    argument is one, that is on negative numbers. *)
Definition py_sqrt (x : float) : result float :=
  let r := PrimFloat.sqrt x in
  if is_nan r && negb (is_nan x) then Raise (ValueError MathDomain) else Ok r.

(** [max l]: a scan from the left that moves on when the best so far is
    strictly less than the next item. *)
Definition py_max (l : list float) : result float :=
  match l with
  | [] => Raise (ValueError EmptySequence)
  | x :: xs =>
      Ok (fold_left (λ best item, if best <? item then item else best) xs x)
  end.

(** [min l]: likewise, moving on when the next item is strictly less. *)
Definition py_min (l : list float) : result float :=
  match l with
  | [] => Raise (ValueError EmptySequence)
  | x :: xs =>
      Ok (fold_left (λ best item, if item <? best then item else best) xs x)
  end.

Definition euclidean_distance (p1 p2 : Point) : result float :=
  dx2 ←$ py_pow2 (p2.1 - p1.1);
  dy2 ←$ py_pow2 (p2.2 - p1.2);
  py_sqrt (dx2 + dy2).

(** The quotient [h] is computed, and never used. *)
Definition ramanujan_ellipse_circumference (a b : float) : result float :=
  n ←$ py_pow2 (a - b);
  d ←$ py_pow2 (a + b);
  h ←$ py_div n d;
  root ←$ py_sqrt ((3 * a + b) * (a + 3 * b));
  let circumference := pi * (3 * (a + b) - root) in
  Ok circumference.

(** A NaN height is not [<= 0], so it passes the second check. *)
Definition calibrate_pixel_to_cm (front_landmarks : LandmarkSet)
    (user_height_cm : float) : result float :=
  match front_landmarks with
  | [] => Raise (ValueError EmptyLandmarks)
  | _ :: _ =>
      if user_height_cm <=? 0
      then Raise (ValueError (InvalidHeight user_height_cm))
      else
        let y_coordinates :=
          List.map (λ item : string * Point, item.2.2) front_landmarks in
        match y_coordinates with
        | [] => Raise (ValueError NoYCoordinates)
        | _ :: _ =>
            min_y ←$ py_min y_coordinates;
            max_y ←$ py_max y_coordinates;
            let height_in_pixels := max_y - min_y in
            if height_in_pixels <=? 0
            then Raise (ValueError (InvalidHeightInPixels height_in_pixels))
            else py_div user_height_cm height_in_pixels
        end
  end.

(** The list comprehension of the band search:
    [[coord[0] for name, coord in side_landmarks.items()
      if abs(coord[1] - level_y) < tolerance]]. *)
Definition level_points (side_landmarks : LandmarkSet)
    (level_y tolerance : float) : list float :=
  List.map (λ item : string * Point, item.2.1)
    (List.filter (λ item : string * Point, abs (item.2.2 - level_y) <? tolerance)
       side_landmarks).

(** [max(points) - min(points)] if the list is non-empty, else the fallback. *)
Definition depth_px (points : list float) (fallback : float) : result float :=
  match points with
  | _ :: _ =>
      hi ←$ py_max points;
      lo ←$ py_min points;
      Ok (hi - lo)
  | [] => Ok fallback
  end.

Definition calculate_neck_circumference (front_landmarks side_landmarks : LandmarkSet)
    (pixel_to_cm : float) : result float :=
  left_shoulder_front ←$ getitem front_landmarks "LEFT_SHOULDER";
  right_shoulder_front ←$ getitem front_landmarks "RIGHT_SHOULDER";
  shoulder_width_px ←$ euclidean_distance left_shoulder_front right_shoulder_front;
  let neck_width_px := shoulder_width_px * 0.30 in
  left_shoulder_side ←$ getitem side_landmarks "LEFT_SHOULDER";
  right_shoulder_side ←$ getitem side_landmarks "RIGHT_SHOULDER";
  let x_coords := [left_shoulder_side.1; right_shoulder_side.1] in
  hi ←$ py_max x_coords;
  lo ←$ py_min x_coords;
  let neck_depth_px := (hi - lo) * 0.30 in
  let neck_depth_px :=
    if neck_depth_px <? neck_width_px * 0.3
    then neck_width_px * 0.7
    else neck_depth_px in
  let a := (neck_width_px / 2) * pixel_to_cm in
  let b := (neck_depth_px / 2) * pixel_to_cm in
  ramanujan_ellipse_circumference a b.

Definition calculate_chest_circumference (front_landmarks side_landmarks : LandmarkSet)
    (pixel_to_cm : float) : result float :=
  left_shoulder ←$ getitem front_landmarks "LEFT_SHOULDER";
  right_shoulder ←$ getitem front_landmarks "RIGHT_SHOULDER";
  distance_px ←$ euclidean_distance left_shoulder right_shoulder;
  let chest_width_px := distance_px * 1.1 in
  left_shoulder_side ←$ getitem side_landmarks "LEFT_SHOULDER";
  right_shoulder_side ←$ getitem side_landmarks "RIGHT_SHOULDER";
  let chest_y := (left_shoulder_side.2 + right_shoulder_side.2) / 2 in
  left_hip_side ←$ getitem side_landmarks "LEFT_HIP";
  let tolerance := abs (left_shoulder_side.2 - left_hip_side.2) * 0.2 in
  let chest_level_points := level_points side_landmarks chest_y tolerance in
  chest_depth_px ←$
    depth_px chest_level_points
      (abs (left_shoulder_side.1 - right_shoulder_side.1));
  let a := (chest_width_px / 2) * pixel_to_cm in
  let b := (chest_depth_px / 2) * pixel_to_cm in
  ramanujan_ellipse_circumference a b.

(** ** Vocabulary *)

Definition not_nan (x : float) : Prop := is_nan x = false.

(** A front and a side set with one-decimal coordinates.  In the side set
    the elbow is 72.8 pixels above the shoulders and the tolerance is
    [|200 - 564.0| * 0.2]; both round to the same double, so the strict
    test leaves the elbow out of the band. *)
Definition sample_front : LandmarkSet :=
  [ ("NOSE", (200, 10)); ("LEFT_SHOULDER", (100, 200));
    ("RIGHT_SHOULDER", (300, 200)); ("LEFT_ANKLE", (150, 1000)) ].

Definition sample_side : LandmarkSet :=
  [ ("NOSE", (260, 10)); ("LEFT_SHOULDER", (200, 200));
    ("RIGHT_SHOULDER", (240, 200)); ("LEFT_ELBOW", (120, 127.2));
    ("LEFT_HIP", (190, 564.0)) ].

(** A side set with an empty band: the hip is 10 pixels below the left
    shoulder, so the tolerance is 2, and every landmark is at least 40
    pixels away from the mean shoulder y. *)
Definition fallback_side : LandmarkSet :=
  [ ("LEFT_SHOULDER", (200, 200)); ("RIGHT_SHOULDER", (260, 300));
    ("LEFT_HIP", (190, 210)) ].



End Binary64.

(** * Properties *)

(** ** The result monad and the primitives *)

Lemma sum_sq_nonneg (u v : R) : 0 <= u ^ 2 + v ^ 2.
Proof. nra. Qed.

Lemma euclidean_distance_ok (p1 p2 : Point) :
  euclidean_distance p1 p2 = Ok (dist p1 p2).
Proof.
  unfold euclidean_distance, py_sqrt, dist.
  case_decide as Hneg; [|reflexivity].
  pose proof (sum_sq_nonneg (p2.1 - p1.1) (p2.2 - p1.2)). lra.
Qed.

Lemma dist_nonneg (p1 p2 : Point) : 0 <= dist p1 p2.
Proof. apply sqrt_pos. Qed.

Lemma dist_sym (p1 p2 : Point) : dist p1 p2 = dist p2 p1.
Proof. unfold dist. f_equal. ring. Qed.

Lemma dist_zero_iff (p1 p2 : Point) : dist p1 p2 = 0 ↔ p1 = p2.
Proof.
  unfold dist. destruct p1 as [x1 y1], p2 as [x2 y2]; cbn [fst snd]. split.
  - intros H0. apply sqrt_eq_0 in H0; [|apply sum_sq_nonneg].
    destruct (Rplus_sqr_eq_0 (x2 - x1) (y2 - y1)) as [Hx Hy].
    { unfold Rsqr. lra. }
    f_equal; lra.
  - intros [= -> ->].
    replace ((x2 - x2) ^ 2 + (y2 - y2) ^ 2) with 0 by ring. apply sqrt_0.
Qed.

Lemma getitem_Some (d : LandmarkSet) key p :
  d !! key = Some p → getitem d key = Ok p.
Proof. unfold getitem. by intros ->. Qed.

Lemma getitem_None (d : LandmarkSet) key :
  d !! key = None → getitem d key = Raise (KeyError key).
Proof. unfold getitem. by intros ->. Qed.

(** ** [min] and [max] of a list *)

Lemma foldl_Rmin_spec (l : list R) (x : R) :
  (foldl Rmin x l = x ∨ foldl Rmin x l ∈ l) ∧
  foldl Rmin x l <= x ∧ Forall (λ y, foldl Rmin x l <= y) l.
Proof.
  revert x. induction l as [|y l IH]; intros x; simpl.
  - split; [by left|]. split; [lra|constructor].
  - destruct (IH (Rmin x y)) as (Hin & Hle & Hall).
    pose proof (Rmin_l x y). pose proof (Rmin_r x y).
    split; [|split].
    + destruct Hin as [Heq|Hin]; [|right; by apply elem_of_cons; right].
      rewrite Heq. unfold Rmin. destruct (Rle_dec x y); [by left|right; left].
    + lra.
    + constructor; [lra|done].
Qed.

Lemma foldl_Rmax_spec (l : list R) (x : R) :
  (foldl Rmax x l = x ∨ foldl Rmax x l ∈ l) ∧
  x <= foldl Rmax x l ∧ Forall (λ y, y <= foldl Rmax x l) l.
Proof.
  revert x. induction l as [|y l IH]; intros x; simpl.
  - split; [by left|]. split; [lra|constructor].
  - destruct (IH (Rmax x y)) as (Hin & Hle & Hall).
    pose proof (Rmax_l x y). pose proof (Rmax_r x y).
    split; [|split].
    + destruct Hin as [Heq|Hin]; [|right; by apply elem_of_cons; right].
      rewrite Heq. unfold Rmax. destruct (Rle_dec x y); [right; left|by left].
    + lra.
    + constructor; [lra|done].
Qed.

Lemma py_min_Ok (l : list R) (m : R) :
  py_min l = Ok m ↔ m ∈ l ∧ ∀ y, y ∈ l → m <= y.
Proof.
  destruct l as [|x l]; simpl.
  - split; [done|]. intros [Hin _]. by apply elem_of_nil in Hin.
  - destruct (foldl_Rmin_spec l x) as (Hin & Hle & Hall).
    rewrite Forall_forall in Hall. split.
    + intros [= <-]. split.
      * apply elem_of_cons. destruct Hin; [by left|by right].
      * intros y [->|Hy]%elem_of_cons; [done|by apply Hall].
    + intros [Hm Hlow]. f_equal. apply Rle_antisym.
      * apply elem_of_cons in Hm as [->|Hm]; [done|by apply Hall].
      * apply Hlow, elem_of_cons. destruct Hin as [->|Hin]; [by left|by right].
Qed.

Lemma py_max_Ok (l : list R) (m : R) :
  py_max l = Ok m ↔ m ∈ l ∧ ∀ y, y ∈ l → y <= m.
Proof.
  destruct l as [|x l]; simpl.
  - split; [done|]. intros [Hin _]. by apply elem_of_nil in Hin.
  - destruct (foldl_Rmax_spec l x) as (Hin & Hle & Hall).
    rewrite Forall_forall in Hall. split.
    + intros [= <-]. split.
      * apply elem_of_cons. destruct Hin; [by left|by right].
      * intros y [->|Hy]%elem_of_cons; [done|by apply Hall].
    + intros [Hm Hup]. f_equal. apply Rle_antisym.
      * apply Hup, elem_of_cons. destruct Hin as [->|Hin]; [by left|by right].
      * apply elem_of_cons in Hm as [->|Hm]; [done|by apply Hall].
Qed.

Lemma py_min_cons (x : R) (l : list R) : ∃ m, py_min (x :: l) = Ok m.
Proof. by eexists. Qed.

Lemma py_max_cons (x : R) (l : list R) : ∃ m, py_max (x :: l) = Ok m.
Proof. by eexists. Qed.

(** ** Extreme y-coordinates of a landmark map *)

Lemma elem_of_y_coordinates (m : LandmarkSet) (y : R) :
  y ∈ (λ coord : Point, coord.2) <$> (map_to_list m).*2 ↔
  ∃ k p, m !! k = Some p ∧ p.2 = y.
Proof.
  rewrite list_elem_of_fmap. split.
  - intros (p & -> & Hp). apply list_elem_of_fmap in Hp as ([k p'] & -> & Hkp).
    apply elem_of_map_to_list in Hkp. by exists k, p'.
  - intros (k & p & Hkp & <-). exists p. split; [done|].
    apply list_elem_of_fmap. exists (k, p). split; [done|].
    by apply elem_of_map_to_list.
Qed.

Lemma py_min_y_coordinates (m : LandmarkSet) (y : R) :
  py_min ((λ coord : Point, coord.2) <$> (map_to_list m).*2) = Ok y ↔ is_min_y m y.
Proof.
  rewrite py_min_Ok, elem_of_y_coordinates. unfold is_min_y.
  split; intros [Hin Hlow]; (split; [done|]).
  - intros k p Hkp. apply Hlow, elem_of_y_coordinates. by exists k, p.
  - intros y' (k & p & Hkp & <-)%elem_of_y_coordinates. by apply (Hlow k).
Qed.

Lemma py_max_y_coordinates (m : LandmarkSet) (y : R) :
  py_max ((λ coord : Point, coord.2) <$> (map_to_list m).*2) = Ok y ↔ is_max_y m y.
Proof.
  rewrite py_max_Ok, elem_of_y_coordinates. unfold is_max_y.
  split; intros [Hin Hup]; (split; [done|]).
  - intros k p Hkp. apply Hup, elem_of_y_coordinates. by exists k, p.
  - intros y' (k & p & Hkp & <-)%elem_of_y_coordinates. by apply (Hup k).
Qed.

Lemma y_coordinates_nil (m : LandmarkSet) :
  (λ coord : Point, coord.2) <$> (map_to_list m).*2 = [] ↔ m = ∅.
Proof.
  rewrite <- map_to_list_empty_iff. split.
  - intros H%fmap_nil_inv. by apply fmap_nil_inv in H.
  - by intros ->.
Qed.

Lemma is_min_y_nonempty (m : LandmarkSet) (y : R) : is_min_y m y → m ≠ ∅.
Proof. intros [(k & p & Hkp & _) _] ->. by rewrite lookup_empty in Hkp. Qed.

Lemma extremes_exist (m : LandmarkSet) :
  m ≠ ∅ → ∃ lo hi, is_min_y m lo ∧ is_max_y m hi.
Proof.
  intros Hne.
  destruct ((λ coord : Point, coord.2) <$> (map_to_list m).*2) as [|y ys] eqn:Hys.
  { by apply y_coordinates_nil in Hys. }
  destruct (py_min_cons y ys) as [lo Hlo], (py_max_cons y ys) as [hi Hhi].
  rewrite <- Hys in Hlo, Hhi.
  exists lo, hi. split; [by apply py_min_y_coordinates|by apply py_max_y_coordinates].
Qed.

Lemma is_min_y_unique (m : LandmarkSet) (y y' : R) :
  is_min_y m y → is_min_y m y' → y = y'.
Proof.
  intros [(k & p & Hkp & <-) Hlow] [(k' & p' & Hkp' & <-) Hlow'].
  apply Rle_antisym; eauto.
Qed.

Lemma is_max_y_unique (m : LandmarkSet) (y y' : R) :
  is_max_y m y → is_max_y m y' → y = y'.
Proof.
  intros [(k & p & Hkp & <-) Hup] [(k' & p' & Hkp' & <-) Hup'].
  apply Rle_antisym; eauto.
Qed.

(** What [calibrate_pixel_to_cm] does once the two guards are passed. *)
Lemma calibrate_unfold (front : LandmarkSet) (h lo hi : R) :
  0 < h → is_min_y front lo → is_max_y front hi →
  calibrate_pixel_to_cm front h =
    if decide (hi - lo <= 0)
    then Raise (ValueError (InvalidHeightInPixels (hi - lo)))
    else Ok (h / (hi - lo)).
Proof.
  intros Hh Hlo Hhi. unfold calibrate_pixel_to_cm.
  rewrite decide_False by by eapply is_min_y_nonempty.
  rewrite decide_False by lra.
  apply py_min_y_coordinates in Hlo. apply py_max_y_coordinates in Hhi.
  destruct ((λ coord : Point, coord.2) <$> (map_to_list front).*2) as [|y ys] eqn:Hys.
  { done. }
  rewrite Hlo, Hhi. cbn [bind].
  case_decide; [done|]. unfold py_div. rewrite decide_False by lra. done.
Qed.

(** ** The sample landmark sets *)

(** Case analysis on a lookup [H : m !! k = Some p] in a map literal. *)
Ltac lookup_cases H :=
  repeat (apply lookup_insert_Some in H as [[<- <-]|[? H]]);
  try (apply lookup_singleton_Some in H as [<- <-]).

Lemma sample_front_min_y : is_min_y sample_front 10.
Proof.
  split.
  - by exists "NOSE", (200, 10).
  - intros k p H. unfold sample_front in H. lookup_cases H; cbn [snd]; lra.
Qed.

Lemma sample_front_max_y : is_max_y sample_front 1000.
Proof.
  split.
  - by exists "LEFT_ANKLE", (150, 1000).
  - intros k p H. unfold sample_front in H. lookup_cases H; cbn [snd]; lra.
Qed.

(** ** Geometry primitives: the distance *)

(** C9: [euclidean_distance] always returns; the value is symmetric in its
    two points, never negative, and zero exactly when the points are equal
    (so the distance from a point to itself is zero). *)
Theorem euclidean_distance_metric (p1 p2 : Point) :
  ∃ d, euclidean_distance p1 p2 = Ok d ∧
       euclidean_distance p2 p1 = Ok d ∧
       0 <= d ∧
       (d = 0 ↔ p1 = p2) ∧
       euclidean_distance p1 p1 = Ok 0.
Proof.
  exists (dist p1 p2). rewrite !euclidean_distance_ok.
  split; [done|]. split; [by rewrite (dist_sym p2 p1)|].
  split; [apply dist_nonneg|]. split; [apply dist_zero_iff|].
  f_equal. by apply dist_zero_iff.
Qed.

(** ** Calibrator *)

(** C1: for a declared height [h > 0] and a front landmark set whose
    smallest and largest y-coordinate, taken over all values of the map,
    are [min_y] and [max_y] with [max_y - min_y > 0], calibration returns
    exactly [h / (max_y - min_y)]. *)
Theorem calibrate_returns_ratio (front : LandmarkSet) (h min_y max_y : R) :
  0 < h → is_min_y front min_y → is_max_y front max_y → 0 < max_y - min_y →
  calibrate_pixel_to_cm front h = Ok (h / (max_y - min_y)).
Proof.
  intros Hh Hlo Hhi Hpos. rewrite (calibrate_unfold front h min_y max_y) by done.
  rewrite decide_False by lra. done.
Qed.

Lemma calibrate_returns_ratio_witness :
  calibrate_pixel_to_cm sample_front 180 = Ok (180 / (1000 - 10)).
Proof.
  apply (calibrate_returns_ratio sample_front 180 10 1000).
  - lra.
  - exact sample_front_min_y.
  - exact sample_front_max_y.
  - lra.
Defined.

(** C4: calibration raises [ValueError] exactly when the front landmark set
    is empty, or the declared height is not positive, or the pixel height
    [max_y - min_y] is not positive; it raises nothing else, in particular
    never the [KeyError] of a missing landmark; and it does raise when all
    front landmarks share one y-coordinate. *)
Theorem calibrate_invalid_input_iff (front : LandmarkSet) (h : R) :
  ((∃ why, calibrate_pixel_to_cm front h = Raise (ValueError why)) ↔
     front = ∅ ∨ h <= 0 ∨
     ∃ min_y max_y, is_min_y front min_y ∧ is_max_y front max_y ∧ max_y - min_y <= 0) ∧
  (∀ e, calibrate_pixel_to_cm front h = Raise e → ∃ why, e = ValueError why) ∧
  (∀ key, calibrate_pixel_to_cm front h ≠ Raise (KeyError key)) ∧
  (∀ y0, (∀ k p, front !! k = Some p → p.2 = y0) →
     ∃ why, calibrate_pixel_to_cm front h = Raise (ValueError why)).
Proof.
  assert (Hcases : front = ∅ ∧ calibrate_pixel_to_cm front h = Raise (ValueError EmptyLandmarks) ∨
    front ≠ ∅ ∧ h <= 0 ∧ calibrate_pixel_to_cm front h = Raise (ValueError (InvalidHeight h)) ∨
    front ≠ ∅ ∧ 0 < h ∧ ∃ lo hi, is_min_y front lo ∧ is_max_y front hi ∧
      calibrate_pixel_to_cm front h =
        if decide (hi - lo <= 0) then Raise (ValueError (InvalidHeightInPixels (hi - lo)))
        else Ok (h / (hi - lo))).
  { destruct (decide (front = ∅)) as [->|Hne].
    { left. split; [done|]. unfold calibrate_pixel_to_cm. by rewrite decide_True. }
    right. destruct (decide (h <= 0)) as [Hh|Hh].
    { left. do 2 (split; [done|]). unfold calibrate_pixel_to_cm.
      rewrite decide_False by done. by rewrite decide_True. }
    right. split; [done|]. split; [lra|].
    destruct (extremes_exist front Hne) as (lo & hi & Hlo & Hhi).
    exists lo, hi. do 2 (split; [done|]). apply calibrate_unfold; [lra|done..]. }
  assert (Hraise : ∀ e, calibrate_pixel_to_cm front h = Raise e → ∃ why, e = ValueError why).
  { intros e He.
    destruct Hcases as [[_ Hc]|[(_ & _ & Hc)|(_ & _ & lo & hi & _ & _ & Hc)]];
      rewrite Hc in He; [by injection He as <-; eexists..|].
    case_decide; [by injection He as <-; eexists|done]. }
  split; [|split; [done|split]].
  - split.
    + intros [why Hwhy].
      destruct Hcases as [[? _]|[(_ & ? & _)|(_ & _ & lo & hi & Hlo & Hhi & Hc)]];
        [by left|by right; left|].
      right; right. exists lo, hi. do 2 (split; [done|]).
      rewrite Hc in Hwhy. by case_decide.
    + intros Hbad.
      destruct Hcases as [[_ Hc]|[(_ & _ & Hc)|(Hne & Hh & lo & hi & Hlo & Hhi & Hc)]];
        [by eexists..|].
      destruct Hbad as [?|[?|(lo' & hi' & Hlo' & Hhi' & Hle)]]; [done|lra|].
      rewrite (is_min_y_unique _ _ _ Hlo Hlo'), (is_max_y_unique _ _ _ Hhi Hhi') in Hc.
      rewrite Hc, decide_True by done. by eexists.
  - intros key Hkey. by destruct (Hraise _ Hkey).
  - intros y0 Hy0.
    destruct Hcases as [[_ Hc]|[(_ & _ & Hc)|(_ & _ & lo & hi & Hlo & Hhi & Hc)]];
      [by eexists..|].
    destruct Hlo as [(k1 & q1 & Hq1 & <-) _], Hhi as [(k2 & q2 & Hq2 & <-) _].
    rewrite Hc, decide_True; [by eexists|].
    rewrite (Hy0 _ _ Hq1), (Hy0 _ _ Hq2). lra.
Qed.

Lemma calibrate_invalid_input_iff_witness :
  ∃ why, calibrate_pixel_to_cm sample_front 0 = Raise (ValueError why).
Proof.
  apply (proj2 (proj1 (calibrate_invalid_input_iff sample_front 0))).
  right; left. lra.
Defined.

(** ** The ellipse circumference *)

Lemma ramanujan_zero_sum (a b : R) :
  a + b = 0 → ramanujan_ellipse_circumference a b = Raise ZeroDivisionError.
Proof.
  intros Hab. unfold ramanujan_ellipse_circumference, py_div.
  rewrite decide_True; [done|]. rewrite Hab. ring.
Qed.

Lemma ramanujan_returns (a b : R) :
  a + b ≠ 0 → 0 <= (3 * a + b) * (a + 3 * b) →
  ramanujan_ellipse_circumference a b = Ok (ramanujan a b).
Proof.
  intros Hab Hrad. unfold ramanujan_ellipse_circumference, py_div, py_sqrt.
  rewrite decide_False by by apply pow_nonzero.
  cbn [bind]. rewrite decide_False by lra. done.
Qed.

Lemma ramanujan_returns_nonneg (a b : R) :
  0 <= a → 0 <= b → 0 < a + b →
  ramanujan_ellipse_circumference a b = Ok (ramanujan a b).
Proof. intros Ha Hb Hab. apply ramanujan_returns; [lra|nra]. Qed.







(** C10: with semi-axes that sum to zero (both zero, say) the function
    raises [ZeroDivisionError] instead of returning, although the quotient
    it divides for plays no part in the value returned otherwise; the bicep
    circumference runs into this when shoulder and elbow coincide in both
    views. *)
Theorem zero_axes_raise_division_error :
  (∀ a b, a + b = 0 →
     ramanujan_ellipse_circumference a b = Raise ZeroDivisionError) ∧
  (∀ a b, a + b ≠ 0 → 0 <= (3 * a + b) * (a + 3 * b) →
     ramanujan_ellipse_circumference a b =
       Ok (PI * (3 * (a + b) - sqrt ((3 * a + b) * (a + 3 * b))))) ∧
  (∀ (front side : LandmarkSet) pixel_to_cm sd p q,
     front !! (sd +:+ "_SHOULDER") = Some p → front !! (sd +:+ "_ELBOW") = Some p →
     side !! (sd +:+ "_SHOULDER") = Some q → side !! (sd +:+ "_ELBOW") = Some q →
     calculate_bicep_circumference front side pixel_to_cm sd = Raise ZeroDivisionError).
Proof.
  split; [exact ramanujan_zero_sum|]. split; [exact ramanujan_returns|].
  intros front side pixel_to_cm sd p q Hfs Hfe Hss Hse.
  unfold calculate_bicep_circumference.
  rewrite (getitem_Some _ _ _ Hfs), (getitem_Some _ _ _ Hfe),
    (getitem_Some _ _ _ Hss), (getitem_Some _ _ _ Hse).
  cbn [bind]. rewrite !euclidean_distance_ok. cbn [bind].
  apply ramanujan_zero_sum.
  rewrite (proj2 (dist_zero_iff p p) eq_refl), (proj2 (dist_zero_iff q q) eq_refl). lra.
Qed.

Lemma zero_axes_raise_division_error_witness :
  ramanujan_ellipse_circumference 0 0 = Raise ZeroDivisionError.
Proof. apply (proj1 zero_axes_raise_division_error 0 0). lra. Defined.

(** ** Linear measurements *)

(** C8: with both hips and both ankles present, the inseam is the scale
    times the mean of the two distances from the crotch point, whose x is the
    mean of the hips' x and whose y is the larger of the hips' y, to the left
    and to the right ankle. *)
Theorem inseam_from_crotch (front : LandmarkSet) (pixel_to_cm : R)
    (left_hip right_hip left_ankle right_ankle : Point) :
  front !! "LEFT_HIP" = Some left_hip →
  front !! "RIGHT_HIP" = Some right_hip →
  front !! "LEFT_ANKLE" = Some left_ankle →
  front !! "RIGHT_ANKLE" = Some right_ankle →
  let crotch : Point :=
    ((left_hip.1 + right_hip.1) / 2, Rmax left_hip.2 right_hip.2) in
  (∃ d_left d_right,
     euclidean_distance crotch left_ankle = Ok d_left ∧
     euclidean_distance crotch right_ankle = Ok d_right ∧
     calculate_inseam front pixel_to_cm =
       Ok (pixel_to_cm * ((d_left + d_right) / 2))) ∧
  (left_hip.2 <= crotch.2 ∧ right_hip.2 <= crotch.2 ∧
   (crotch.2 = left_hip.2 ∨ crotch.2 = right_hip.2)).
Proof.
  intros Hlh Hrh Hla Hra crotch. split.
  - exists (dist crotch left_ankle), (dist crotch right_ankle).
    rewrite !euclidean_distance_ok. do 2 (split; [done|]).
    unfold calculate_inseam.
    rewrite (getitem_Some _ _ _ Hlh), (getitem_Some _ _ _ Hrh),
      (getitem_Some _ _ _ Hla), (getitem_Some _ _ _ Hra).
    cbn [bind]. rewrite !euclidean_distance_ok. cbn [bind].
    f_equal. fold crotch. ring.
  - subst crotch. cbn [snd].
    pose proof (Rmax_l left_hip.2 right_hip.2).
    pose proof (Rmax_r left_hip.2 right_hip.2).
    do 2 (split; [done|]). unfold Rmax. destruct (Rle_dec _ _); [by right|by left].
Qed.

Lemma inseam_from_crotch_witness :
  ∃ d_left d_right,
    euclidean_distance (200, 560) (150, 1000) = Ok d_left ∧
    euclidean_distance (200, 560) (250, 1000) = Ok d_right ∧
    calculate_inseam sample_front 1 = Ok (1 * ((d_left + d_right) / 2)).
Proof.
  pose proof (proj1 (inseam_from_crotch sample_front 1
    (150, 550) (250, 560) (150, 1000) (250, 1000)
    eq_refl eq_refl eq_refl eq_refl)) as H.
  cbn [fst snd] in H.
  replace ((150 + 250) / 2) with 200 in H by lra.
  replace (Rmax 550 560) with 560 in H by (symmetry; apply Rmax_right; lra).
  exact H.
Defined.

(** ** Missing landmarks *)

Lemma getitem_delete (m : LandmarkSet) (k n : string) :
  getitem (delete k m) n =
    if decide (k = n) then Raise (KeyError n) else getitem m n.
Proof.
  unfold getitem. case_decide as Hk.
  - subst. by rewrite lookup_delete_eq.
  - by rewrite lookup_delete_ne.
Qed.

Lemma append_inv_head (s x y : string) : s +:+ x = s +:+ y → x = y.
Proof. induction s as [|c s IH]; simpl; [done|]. intros [= H]. by apply IH. Qed.

(** Settle every comparison of two landmark names in the goal. *)
Ltac resolve_names :=
  repeat (let Hk := fresh "Hk" in
    case_decide as Hk;
    [ first [ discriminate Hk
            | exfalso; apply append_inv_head in Hk; discriminate Hk
            | idtac ]
    | first [ by destruct Hk | idtac ] ]).

(** Run the binds of the goal over the lookups known from the context. *)
Ltac run_lookups :=
  repeat match goal with
  | H : ?m !! ?n = Some ?p |- context [getitem ?m ?n] =>
      rewrite (getitem_Some m n p H)
  end;
  repeat (progress (cbn [bind]; rewrite ?euclidean_distance_ok)).

Ltac split_present :=
  repeat match goal with
  | H : Forall _ (_ :: _) |- _ => apply Forall_cons in H as [[? ?] H]
  end.

(** C5: take any measurement function and landmark sets that hold every
    name the function reads.  Removing one of those names from the set it is
    read from makes the function raise [KeyError] carrying exactly that
    name, so no value is returned. *)
Theorem missing_landmark_raises_key_error (f : measurer)
    (front side : LandmarkSet) (pixel_to_cm : R) (name : string) :
  Forall (λ n, is_Some (front !! n)) (front_names f) →
  Forall (λ n, is_Some (side !! n)) (side_names f) →
  (name ∈ front_names f →
     measure f (delete name front) side pixel_to_cm = Raise (KeyError name)) ∧
  (name ∈ side_names f →
     measure f front (delete name side) pixel_to_cm = Raise (KeyError name)).
Proof.
  intros Hfront Hside. split; intros Hname.
  - destruct f; cbn [front_names side_names measure] in *; split_present;
      repeat (apply elem_of_cons in Hname as [->|Hname]);
      try (by apply elem_of_nil in Hname);
      unfold calculate_shoulder_width, calculate_sleeve_length, calculate_inseam,
        calculate_outseam, calculate_neck_circumference,
        calculate_chest_circumference, calculate_waist_circumference,
        calculate_hip_circumference, calculate_bicep_circumference,
        calculate_thigh_circumference;
      rewrite ?getitem_delete; resolve_names; run_lookups; done.
  - destruct f; cbn [front_names side_names measure] in *; split_present;
      repeat (apply elem_of_cons in Hname as [->|Hname]);
      try (by apply elem_of_nil in Hname);
      unfold calculate_neck_circumference,
        calculate_chest_circumference, calculate_waist_circumference,
        calculate_hip_circumference, calculate_bicep_circumference,
        calculate_thigh_circumference;
      rewrite ?getitem_delete; resolve_names; run_lookups; done.
Qed.

Lemma missing_landmark_raises_key_error_witness :
  measure ShoulderWidth (delete "LEFT_SHOULDER" sample_front) sample_side 1
    = Raise (KeyError "LEFT_SHOULDER") ∧
  measure ChestCircumference sample_front (delete "LEFT_HIP" sample_side) 1
    = Raise (KeyError "LEFT_HIP").
Proof.
  split.
  - apply (missing_landmark_raises_key_error ShoulderWidth sample_front sample_side 1).
    + repeat constructor; by eexists.
    + constructor.
    + cbn [front_names]. apply elem_of_cons. by left.
  - apply (missing_landmark_raises_key_error ChestCircumference sample_front sample_side 1).
    + repeat constructor; by eexists.
    + repeat constructor; by eexists.
    + cbn [side_names]. do 2 (apply elem_of_cons; right). apply elem_of_cons. by left.
Defined.

(** ** When the measurement functions return *)

Lemma dist_pos (p1 p2 : Point) : p1 ≠ p2 → 0 < dist p1 p2.
Proof.
  intros Hne. destruct (dist_nonneg p1 p2) as [Hpos|Hzero]; [done|].
  symmetry in Hzero. by apply dist_zero_iff in Hzero.
Qed.

Lemma foldl_Rmin_le_Rmax (l : list R) (x y : R) :
  x <= y → foldl Rmin x l <= foldl Rmax y l.
Proof.
  revert x y. induction l as [|z l IH]; intros x y Hxy; simpl; [done|].
  apply IH. pose proof (Rmin_l x z). pose proof (Rmin_r x z).
  pose proof (Rmax_l y z). pose proof (Rmax_r y z). lra.
Qed.

Lemma depth_px_nonneg (points : list R) (fallback : R) :
  0 <= fallback → ∃ d, depth_px points fallback = Ok d ∧ 0 <= d.
Proof.
  intros Hfb. destruct points as [|x xs]; cbn [depth_px py_max py_min bind].
  - by exists fallback.
  - eexists. split; [done|].
    pose proof (foldl_Rmin_le_Rmax xs x x (Rle_refl x)). lra.
Qed.

Section Returns.
Variables (front side : LandmarkSet) (pixel_to_cm : R).
Hypothesis scale_pos : 0 < pixel_to_cm.

(** An ellipse whose width comes from two distinct points has a positive
    first semi-axis, so the circumference function returns. *)
Lemma ellipse_of_width_returns (p1 p2 : Point) (factor depth : R) :
  p1 ≠ p2 → 0 < factor → 0 <= depth →
  ∃ c, ramanujan_ellipse_circumference
         (dist p1 p2 * factor / 2 * pixel_to_cm) (depth / 2 * pixel_to_cm) = Ok c.
Proof using scale_pos.
  intros Hne Hfactor Hdepth. pose proof (dist_pos p1 p2 Hne) as Hd.
  eexists. apply ramanujan_returns_nonneg.
  - apply Rmult_le_pos; [|lra]. apply Rmult_le_pos; [|lra].
    apply Rmult_le_pos; lra.
  - apply Rmult_le_pos; lra.
  - assert (0 < dist p1 p2 * factor / 2 * pixel_to_cm).
    { apply Rmult_lt_0_compat; [|done]. apply Rmult_lt_0_compat; [|lra].
      by apply Rmult_lt_0_compat. }
    assert (0 <= depth / 2 * pixel_to_cm) by (apply Rmult_le_pos; lra).
    lra.
Qed.

(** With every landmark it reads present and the two points of its front
    width distinct, a measurement function returns a value. *)
Lemma measure_returns (f : measurer) :
  Forall (λ n, is_Some (front !! n)) (front_names f) →
  Forall (λ n, is_Some (side !! n)) (side_names f) →
  Forall (λ pair, front !! pair.1 ≠ front !! pair.2) (width_names f) →
  ∃ v, measure f front side pixel_to_cm = Ok v.
Proof using scale_pos.
  intros Hfront Hside Hwidth.
  destruct f; cbn [front_names side_names width_names measure] in *;
    split_present;
    unfold calculate_shoulder_width, calculate_sleeve_length, calculate_inseam,
      calculate_outseam, calculate_neck_circumference,
      calculate_chest_circumference, calculate_waist_circumference,
      calculate_hip_circumference, calculate_bicep_circumference,
      calculate_thigh_circumference;
    run_lookups; try (by eexists).
  all: apply Forall_cons in Hwidth as [Hne _]; cbn [fst snd] in Hne.
  all: match goal with
       | Ha : front !! ?n1 = Some ?p1, Hb : front !! ?n2 = Some ?p2,
         Hne : front !! ?n1 ≠ front !! ?n2 |- _ =>
           assert (p1 ≠ p2) by (intros ->; apply Hne; by rewrite Ha, Hb)
       end.
  - (* neck *)
    cbn [py_max py_min foldl bind].
    apply ellipse_of_width_returns; [done|lra|].
    match goal with |- context [dist ?p ?q] => pose proof (dist_nonneg p q) end.
    match goal with |- context [Rmax ?x ?y] =>
      pose proof (Rmax_l x y); pose proof (Rmin_l x y) end.
    case_decide; nra.
  - (* chest *)
    match goal with |- context [depth_px ?pts ?fb] =>
      destruct (depth_px_nonneg pts fb (Rabs_pos _)) as (d & -> & Hd) end.
    cbn [bind]. by apply ellipse_of_width_returns; [|lra|].
  - (* waist *)
    match goal with |- context [depth_px ?pts ?fb] =>
      destruct (depth_px_nonneg pts fb (Rabs_pos _)) as (d & -> & Hd) end.
    cbn [bind].
    match goal with |- context [dist ?p ?q / 2] =>
      replace (dist p q / 2) with (dist p q * 1 / 2) by lra end.
    by apply ellipse_of_width_returns; [|lra|].
  - (* hip *)
    match goal with |- context [depth_px ?pts ?fb] =>
      destruct (depth_px_nonneg pts fb (Rabs_pos _)) as (d & -> & Hd) end.
    cbn [bind].
    match goal with |- context [dist ?p ?q / 2] =>
      replace (dist p q / 2) with (dist p q * 1 / 2) by lra end.
    by apply ellipse_of_width_returns; [|lra|].
  - (* bicep *)
    apply ellipse_of_width_returns; [done|lra|].
    apply Rmult_le_pos; [apply dist_nonneg|lra].
  - (* thigh *)
    apply ellipse_of_width_returns; [done|lra|].
    apply Rmult_le_pos; [apply dist_nonneg|lra].
Qed.
End Returns.

(** ** Orchestrator *)

(** Case on the next call of the orchestrator: it returns, or its exception
    is the one the whole computation raises. *)
Ltac next_call r scale :=
  let E := fresh "Hcall" in
  destruct r as [?|?] eqn:E; cbn [bind];
  [| right; eexists; split; [reflexivity|];
     right; exists scale; split; [first [assumption|reflexivity]|];
     repeat match goal with H : _ = _ |- _ => rewrite H; clear H end;
     reflexivity ].

(** C2: the orchestrator either returns a mapping whose keys are exactly
    the fourteen measurement names, with the input height under ["height"]
    and each measurement function's value under its key, or it raises the
    exception of the first failing step (calibration first, then the
    measurement functions in order); being an exception, that outcome carries
    no mapping. *)
Theorem calculate_all_or_first_error (front side : LandmarkSet) (h : R) :
  (∃ m pixel_to_cm,
     calculate_all_measurements front side h = Ok m ∧
     dom m = measurement_keys ∧
     m !! "height" = Some h ∧
     calibrate_pixel_to_cm front h = Ok pixel_to_cm ∧
     ∀ key r, (key, r) ∈ sub_results front side pixel_to_cm →
              ∃ v, r = Ok v ∧ m !! key = Some v) ∨
  (∃ e,
     calculate_all_measurements front side h = Raise e ∧
     (calibrate_pixel_to_cm front h = Raise e ∨
      ∃ pixel_to_cm,
        calibrate_pixel_to_cm front h = Ok pixel_to_cm ∧
        first_raise (sub_results front side pixel_to_cm) = Some e)).
Proof.
  unfold calculate_all_measurements, sub_results, measure.
  destruct (calibrate_pixel_to_cm front h) as [scale|e] eqn:Hcal; cbn [bind].
  2: { right. exists e. split; [done|by left]. }
  next_call (calculate_shoulder_width front scale) scale.
  next_call (calculate_sleeve_length front scale "LEFT") scale.
  next_call (calculate_sleeve_length front scale "RIGHT") scale.
  next_call (calculate_inseam front scale) scale.
  next_call (calculate_outseam front scale) scale.
  next_call (calculate_neck_circumference front side scale) scale.
  next_call (calculate_chest_circumference front side scale) scale.
  next_call (calculate_waist_circumference front side scale) scale.
  next_call (calculate_hip_circumference front side scale) scale.
  next_call (calculate_bicep_circumference front side scale "LEFT") scale.
  next_call (calculate_bicep_circumference front side scale "RIGHT") scale.
  next_call (calculate_thigh_circumference front side scale "LEFT") scale.
  next_call (calculate_thigh_circumference front side scale "RIGHT") scale.
  left. eexists _, scale. split; [reflexivity|]. split; [|split; [|split; [done|]]].
  - rewrite !dom_insert_L, dom_empty_L. unfold measurement_keys. set_solver.
  - by rewrite !lookup_insert_ne, lookup_insert_eq by done.
  - intros key r Hin.
    repeat (apply elem_of_cons in Hin as [[= -> ->]|Hin];
      [eexists; split; [eassumption|];
       by rewrite ?lookup_insert_ne, lookup_insert_eq by done|]).
    by apply elem_of_nil in Hin.
Qed.

Lemma first_raise_None {A : Type} (calls : list (string * result A)) :
  Forall (λ call, ∃ v, call.2 = Ok v) calls → first_raise calls = None.
Proof.
  induction 1 as [|[key r] calls [v Hv] _ IH]; [done|].
  cbn [snd] in Hv. subst r. done.
Qed.

Lemma sample_calibrate :
  calibrate_pixel_to_cm sample_front 180 = Ok (180 / (1000 - 10)).
Proof.
  rewrite (calibrate_unfold sample_front 180 10 1000);
    [|lra|exact sample_front_min_y|exact sample_front_max_y].
  rewrite decide_False by lra. done.
Qed.

(** Two landmarks of a map literal sit at different points. *)
Ltac distinct_lookups :=
  match goal with
  | |- ?m !! ?a ≠ ?m !! ?b =>
      let Ha := fresh "Ha" in
      let Hb := fresh "Hb" in
      eassert (Ha : m !! a = Some _) by reflexivity;
      eassert (Hb : m !! b = Some _) by reflexivity;
      rewrite Ha, Hb; intros [=]; lra
  end.

Lemma sample_sub_results_return :
  Forall (λ call, ∃ v, call.2 = Ok v)
    (sub_results sample_front sample_side (180 / (1000 - 10))).
Proof.
  assert (Hscale : 0 < 180 / (1000 - 10)) by lra.
  unfold sub_results.
  repeat (apply Forall_cons; split;
    [cbn [snd]; apply measure_returns; [done|..];
     cbn [front_names side_names width_names];
     repeat (apply Forall_cons; split); try apply Forall_nil_2;
     first [by eexists | cbn [fst snd]; distinct_lookups]|]).
  apply Forall_nil_2.
Qed.

Lemma calculate_all_or_first_error_witness :
  ∃ m, calculate_all_measurements sample_front sample_side 180 = Ok m ∧
       dom m = measurement_keys ∧ m !! "height" = Some 180.
Proof.
  destruct (calculate_all_or_first_error sample_front sample_side 180)
    as [(m & scale & Hm & Hdom & Hheight & _)
       |(e & _ & [Hcal|(scale & Hcal & Hfirst)])].
  - by exists m.
  - exfalso. rewrite sample_calibrate in Hcal. discriminate Hcal.
  - exfalso. rewrite sample_calibrate in Hcal. injection Hcal as <-.
    rewrite (first_raise_None _ sample_sub_results_return) in Hfirst.
    discriminate Hfirst.
Defined.

(** * Further properties *)

(** X1: the circumference function treats its two semi-axes alike: swapping
    them changes neither the value returned nor the exception raised. *)
Theorem ellipse_circumference_symmetric (a b : R) :
  ramanujan_ellipse_circumference a b = ramanujan_ellipse_circumference b a.
Proof.
  unfold ramanujan_ellipse_circumference, py_div.
  replace (b + a) with (a + b) by ring.
  replace ((3 * b + a) * (b + 3 * a)) with ((3 * a + b) * (a + 3 * b)) by ring.
  by case_decide.
Qed.

(** X12: calibration's checks come before any landmark is looked up: an
    empty front set, then a height that is not positive, then a pixel height
    that is not positive make the orchestrator raise the corresponding
    [ValueError], whatever the side set holds and whichever landmarks are
    missing. *)
Theorem calculate_all_invalid_input (front side : LandmarkSet) (h : R) :
  (front = ∅ →
     calculate_all_measurements front side h = Raise (ValueError EmptyLandmarks)) ∧
  (front ≠ ∅ → h <= 0 →
     calculate_all_measurements front side h =
       Raise (ValueError (InvalidHeight h))) ∧
  (∀ min_y max_y, 0 < h → is_min_y front min_y → is_max_y front max_y →
     max_y - min_y <= 0 →
     calculate_all_measurements front side h =
       Raise (ValueError (InvalidHeightInPixels (max_y - min_y)))).
Proof.
  unfold calculate_all_measurements. split; [|split].
  - intros ->. unfold calibrate_pixel_to_cm. by rewrite decide_True.
  - intros Hne Hh. unfold calibrate_pixel_to_cm.
    by rewrite decide_False, decide_True.
  - intros lo hi Hh Hlo Hhi Hpx.
    rewrite (calibrate_unfold front h lo hi) by done. by rewrite decide_True.
Qed.

Lemma calculate_all_invalid_input_witness :
  calculate_all_measurements sample_front ∅ 0 = Raise (ValueError (InvalidHeight 0)).
Proof.
  apply (proj1 (proj2 (calculate_all_invalid_input sample_front ∅ 0))).
  - intros Hempty. assert (H : sample_front !! "NOSE" = Some (200, 10)) by reflexivity.
    rewrite Hempty in H. discriminate H.
  - lra.
Defined.

(** * Properties of the calculator on binary64 numbers *)

Module Binary64Facts.
Import Binary64.
Local Open Scope float_scope.
#[local] Set Warnings "-inexact-float".

(** ** The order of binary64 numbers *)

Ltac cmp_cases :=
  repeat match goal with
  | H : context [Z.compare ?a ?b] |- _ => destruct (Z.compare_spec a b); subst
  | |- context [Z.compare ?a ?b] => destruct (Z.compare_spec a b); subst
  | H : context [Pos.compare_cont Eq ?a ?b] |- _ =>
      change (Pos.compare_cont Eq a b) with (Pos.compare a b) in *;
      destruct (Pos.compare_spec a b); subst
  | |- context [Pos.compare_cont Eq ?a ?b] =>
      change (Pos.compare_cont Eq a b) with (Pos.compare a b) in *;
      destruct (Pos.compare_spec a b); subst
  end; simpl in *; try done; try lia.

Lemma SFleb_refl x : SFeqb x x = true → SFleb x x = true.
Proof. unfold SFeqb, SFleb. by destruct (SFcompare x x) as [[]|]. Qed.

Lemma SFleb_total x y :
  SFeqb x x = true → SFeqb y y = true → SFltb y x = false → SFleb x y = true.
Proof.
  unfold SFeqb, SFltb, SFleb.
  destruct x as [[]|[]| |[] mx ex], y as [[]|[]| |[] my ey]; simpl; try done;
    intros _ _; cmp_cases.
Qed.

Lemma SFleb_trans x y z :
  SFleb x y = true → SFleb y z = true → SFleb x z = true.
Proof.
  unfold SFleb.
  destruct x as [[]|[]| |[] mx ex], y as [[]|[]| |[] my ey],
    z as [[]|[]| |[] mz ez]; simpl; try done; cmp_cases.
Qed.

Lemma SFltb_leb x y : SFltb x y = true → SFleb x y = true.
Proof. unfold SFltb, SFleb. by destruct (SFcompare x y) as [[]|]. Qed.

Lemma not_nan_spec x : not_nan x ↔ SFeqb (Prim2SF x) (Prim2SF x) = true.
Proof.
  unfold not_nan, is_nan. rewrite FloatAxioms.eqb_spec.
  by destruct (SFeqb _ _).
Qed.

Lemma leb_refl x : not_nan x → (x <=? x) = true.
Proof. rewrite not_nan_spec, leb_spec. apply SFleb_refl. Qed.

Lemma leb_total x y :
  not_nan x → not_nan y → (y <? x) = false → (x <=? y) = true.
Proof. rewrite !not_nan_spec, ltb_spec, leb_spec. apply SFleb_total. Qed.

Lemma leb_trans x y z : (x <=? y) = true → (y <=? z) = true → (x <=? z) = true.
Proof. rewrite !leb_spec. apply SFleb_trans. Qed.

Lemma ltb_leb x y : (x <? y) = true → (x <=? y) = true.
Proof. rewrite ltb_spec, leb_spec. apply SFltb_leb. Qed.

(** ** [min] and [max] of a list *)

Lemma fold_max_spec (l : list float) (x : float) :
  let m := fold_left (λ best item, if best <? item then item else best) l x in
  (m = x ∨ In m l) ∧
  (not_nan x → Forall not_nan l →
   (x <=? m) = true ∧ Forall (λ y, (y <=? m) = true) l).
Proof.
  revert x. induction l as [|y l IH]; intros x; cbn [fold_left].
  - split; [by left|]. intros Hx _. split; [by apply leb_refl|constructor].
  - destruct (IH (if x <? y then y else x)) as [Hin Hord]. split.
    + destruct Hin as [->|Hin]; [|right; by right].
      destruct (x <? y); [right; by left|by left].
    + intros Hx Hall. inversion Hall as [|? ? Hy Hl]; subst.
      destruct (x <? y) eqn:Hxy.
      * destruct (Hord Hy Hl) as [Hym Hlm].
        split; [|by constructor].
        apply (leb_trans x y); [by apply ltb_leb|done].
      * destruct (Hord Hx Hl) as [Hxm Hlm].
        split; [done|]. constructor; [|done].
        apply (leb_trans y x); [by apply leb_total|done].
Qed.

Lemma fold_min_spec (l : list float) (x : float) :
  let m := fold_left (λ best item, if item <? best then item else best) l x in
  (m = x ∨ In m l) ∧
  (not_nan x → Forall not_nan l →
   (m <=? x) = true ∧ Forall (λ y, (m <=? y) = true) l).
Proof.
  revert x. induction l as [|y l IH]; intros x; cbn [fold_left].
  - split; [by left|]. intros Hx _. split; [by apply leb_refl|constructor].
  - destruct (IH (if y <? x then y else x)) as [Hin Hord]. split.
    + destruct Hin as [->|Hin]; [|right; by right].
      destruct (y <? x); [right; by left|by left].
    + intros Hx Hall. inversion Hall as [|? ? Hy Hl]; subst.
      destruct (y <? x) eqn:Hyx.
      * destruct (Hord Hy Hl) as [Hmy Hlm].
        split; [|by constructor].
        apply (leb_trans _ y); [done|by apply ltb_leb].
      * destruct (Hord Hx Hl) as [Hmx Hlm].
        split; [done|]. constructor; [|done].
        apply (leb_trans _ x); [done|by apply leb_total].
Qed.

(** On a non-empty list [max] and [min] return elements of the list, and
    when no element is a NaN every element lies between them. *)
Lemma py_max_min_spec (x : float) (xs : list float) :
  ∃ hi lo, py_max (x :: xs) = Ok hi ∧ py_min (x :: xs) = Ok lo ∧
           In hi (x :: xs) ∧ In lo (x :: xs) ∧
           (Forall not_nan (x :: xs) →
            Forall (λ y, (lo <=? y) = true ∧ (y <=? hi) = true) (x :: xs)).
Proof.
  destruct (fold_max_spec xs x) as [Hmax_in Hmax], (fold_min_spec xs x) as [Hmin_in Hmin].
  eexists _, _. do 2 (split; [reflexivity|]).
  split; [destruct Hmax_in as [->|?]; [by left|by right]|].
  split; [destruct Hmin_in as [->|?]; [by left|by right]|].
  intros Hall. inversion Hall as [|? ? Hx Hxs]; subst.
  destruct (Hmax Hx Hxs) as [Hxhi Hhi], (Hmin Hx Hxs) as [Hxlo Hlo].
  constructor; [done|].
  rewrite Forall_forall in Hhi, Hlo. apply Forall_forall. intros y Hy. auto.
Qed.

(** ** Band search and chest circumference *)

Lemma In_level_points (side : LandmarkSet) (level_y tolerance x : float) :
  In x (level_points side level_y tolerance) ↔
  ∃ name y, In (name, (x, y)) side ∧ (abs (y - level_y) <? tolerance) = true.
Proof.
  unfold level_points. rewrite in_map_iff. split.
  - intros ([name [x' y]] & <- & [Hin Hband]%filter_In). by exists name, y.
  - intros (name & y & Hin & Hband). exists (name, (x, y)). split; [done|].
    by apply filter_In.
Qed.

(** C3: with the landmarks it reads present, the chest circumference is
    the ellipse circumference of the semi-axes [width/2] and [depth/2] times
    the scale, where [width] is the front shoulder distance times 1.1 and
    [depth] is taken over the x coordinates of all side landmarks whose y
    is strictly less than 0.2 times |left shoulder y - left hip y| away from
    the mean shoulder y: their maximum minus their minimum, or
    |left shoulder x - right shoulder x| when there is no such landmark.
    The mean, the tolerance, the test and the subtraction are the rounded
    binary64 ones; maximum and minimum are elements of the band, and bound
    it whenever no x in it is a NaN. *)
Theorem chest_width_and_depth_binary64 (front side : LandmarkSet)
    (pixel_to_cm : float)
    (left_shoulder right_shoulder left_shoulder_side right_shoulder_side
     left_hip_side : Point) :
  getitem front "LEFT_SHOULDER" = Ok left_shoulder →
  getitem front "RIGHT_SHOULDER" = Ok right_shoulder →
  getitem side "LEFT_SHOULDER" = Ok left_shoulder_side →
  getitem side "RIGHT_SHOULDER" = Ok right_shoulder_side →
  getitem side "LEFT_HIP" = Ok left_hip_side →
  let chest_y := (left_shoulder_side.2 + right_shoulder_side.2) / 2 in
  let tolerance := abs (left_shoulder_side.2 - left_hip_side.2) * 0.2 in
  let xs := level_points side chest_y tolerance in
  (∀ x, In x xs ↔
        ∃ name y, In (name, (x, y)) side ∧
                  (abs (y - chest_y) <? tolerance) = true) ∧
  ∃ depth,
    calculate_chest_circumference front side pixel_to_cm =
      (distance_px ←$ euclidean_distance left_shoulder right_shoulder;
       ramanujan_ellipse_circumference
         (distance_px * 1.1 / 2 * pixel_to_cm) (depth / 2 * pixel_to_cm)) ∧
    (xs = [] → depth = abs (left_shoulder_side.1 - right_shoulder_side.1)) ∧
    (xs ≠ [] →
       ∃ hi lo, py_max xs = Ok hi ∧ py_min xs = Ok lo ∧ depth = hi - lo ∧
                In hi xs ∧ In lo xs ∧
                (Forall not_nan xs →
                 Forall (λ x, (lo <=? x) = true ∧ (x <=? hi) = true) xs)).
Proof.
  intros Hls Hrs Hlss Hrss Hlhs chest_y tolerance xs.
  split; [intros x; apply In_level_points|].
  assert (Hcall : ∀ depth,
    depth_px xs (abs (left_shoulder_side.1 - right_shoulder_side.1)) = Ok depth →
    calculate_chest_circumference front side pixel_to_cm =
      (distance_px ←$ euclidean_distance left_shoulder right_shoulder;
       ramanujan_ellipse_circumference
         (distance_px * 1.1 / 2 * pixel_to_cm) (depth / 2 * pixel_to_cm))).
  { intros depth Hdepth. unfold calculate_chest_circumference.
    rewrite Hls, Hrs, Hlss, Hrss, Hlhs. cbn [bind].
    fold chest_y tolerance xs. rewrite Hdepth.
    by destruct (euclidean_distance left_shoulder right_shoulder). }
  destruct xs as [|x xs'] eqn:Hxs.
  - eexists. split; [by apply Hcall|]. by split.
  - destruct (py_max_min_spec x xs') as (hi & lo & Hhi & Hlo & Hin_hi & Hin_lo & Hord).
    exists (hi - lo). split; [apply Hcall; cbn [depth_px]; by rewrite Hhi, Hlo|].
    split; [done|]. intros _. by exists hi, lo.
Qed.

Lemma chest_width_and_depth_binary64_witness :
  (∃ depth,
     calculate_chest_circumference sample_front sample_side 1 =
       (distance_px ←$ euclidean_distance (100, 200) (300, 200);
        ramanujan_ellipse_circumference
          (distance_px * 1.1 / 2 * 1) (depth / 2 * 1)) ∧
     depth = 40) ∧
  (∃ depth,
     calculate_chest_circumference sample_front fallback_side 1 =
       (distance_px ←$ euclidean_distance (100, 200) (300, 200);
        ramanujan_ellipse_circumference
          (distance_px * 1.1 / 2 * 1) (depth / 2 * 1)) ∧
     depth = abs (200 - 260)).
Proof.
  split.
  - destruct (chest_width_and_depth_binary64 sample_front sample_side 1
      (100, 200) (300, 200) (200, 200) (240, 200) (190, 564.0)
      eq_refl eq_refl eq_refl eq_refl eq_refl)
      as (_ & depth & Hcall & _ & Hdepth).
    exists depth. split; [exact Hcall|].
    destruct Hdepth as (hi & lo & Hhi & Hlo & -> & _); [done|].
    vm_compute in Hhi, Hlo. by injection Hhi as <-; injection Hlo as <-.
  - destruct (chest_width_and_depth_binary64 sample_front fallback_side 1
      (100, 200) (300, 200) (200, 200) (260, 300) (190, 210)
      eq_refl eq_refl eq_refl eq_refl eq_refl)
      as (_ & depth & Hcall & Hempty & _).
    exists depth. split; [exact Hcall|]. by apply Hempty.
Defined.

(** ** Calibrator *)






(** ** Neck circumference *)



(** ** The ellipse circumference *)

(** C6: at radius zero the function does not return the circumference
    [2π·0 = 0] that the formula of its docstring evaluates to: the quotient
    it computes and never uses divides by zero. *)
Theorem circle_of_radius_zero_raises :
  ramanujan_ellipse_circumference 0 0 = Raise ZeroDivisionError ∧
  pi * (3 * (0 + 0) - PrimFloat.sqrt ((3 * 0 + 0) * (0 + 3 * 0))) = 2 * pi * 0.
Proof. split; reflexivity. Qed.


End Binary64Facts.
